(** * cli-mcp: the version resolver of the package initialiser

    The package [cli_mcp] consists of one initialiser, [cli_mcp/__init__.py]:
<<
    try:
        from importlib.metadata import version

        __version__ = version("cli-mcp")
    except Exception:
        __version__ = "dev"
>>
    This development embeds that statement in a small exception-and-state
    monad over the module namespace and proves what the specification says
    about it. *)

From Stdlib Require Import ZArith.
From stdpp Require Import gmap strings list fin_maps.

Local Open Scope string_scope.
Local Open Scope list_scope.

(** ** Python exceptions *)

Module Py.

(** The exception classes that matter for [except Exception]: the roots of
    the built-in hierarchy, the classes the import statement and the metadata
    lookup raise, the classes the interpreter raises for an unbound or
    non-callable name, and classes derived from any of those by user code. *)
Inductive exc_class : Type :=
  | BaseException
  | Exception
  | SystemExit
  | KeyboardInterrupt
  | GeneratorExit
  | ImportError
  | ModuleNotFoundError
  | PackageNotFoundError
  | NameError
  | TypeError
  | UserClass (name : string) (base : exc_class).

#[global] Instance exc_class_eq_dec : EqDecision exc_class.
Proof. solve_decision. Defined.

(** Method resolution order of a class (single inheritance): the class
    itself followed by its bases up to [BaseException]. *)
Fixpoint mro (c : exc_class) : list exc_class :=
  match c with
  | BaseException => [BaseException]
  | Exception => [Exception; BaseException]
  | SystemExit => [SystemExit; BaseException]
  | KeyboardInterrupt => [KeyboardInterrupt; BaseException]
  | GeneratorExit => [GeneratorExit; BaseException]
  | ImportError => [ImportError; Exception; BaseException]
  | ModuleNotFoundError =>
      [ModuleNotFoundError; ImportError; Exception; BaseException]
  | PackageNotFoundError =>
      [PackageNotFoundError; ModuleNotFoundError; ImportError; Exception;
       BaseException]
  | NameError => [NameError; Exception; BaseException]
  | TypeError => [TypeError; Exception; BaseException]
  | UserClass _ base => c :: mro base
  end.

Definition issubclass (c d : exc_class) : bool := bool_decide (d ∈ mro c).

(** A raised exception: its class and its message. *)
Record exn : Type := mk_exn { exc_type : exc_class; exc_msg : string }.

Definition isinstance (e : exn) (d : exc_class) : bool :=
  issubclass (exc_type e) d.

(** Result of evaluating something that may raise. *)
Inductive result (A : Type) : Type :=
  | Ok (a : A)
  | Raise (e : exn).
Arguments Ok {A} a.
Arguments Raise {A} e.

End Py.
Import Py.

(** ** The metadata provider *)

(** What [from importlib.metadata import version] finds: either the import
    raises, or it yields the callable [version], which on a package name
    returns the version string or raises. *)
Definition lookup_fn : Type := string → result string.
Definition provider : Type := result lookup_fn.

(** ** Process state *)

Inductive value : Type :=
  | VStr (s : string)
  | VFunc (f : lookup_fn).

Inductive event : Type :=
  | EvLookup (pkg : string)     (* a call of the provider's [version] *)
  | EvStore (name : string).    (* an assignment to a module-level name *)

#[global] Instance event_eq_dec : EqDecision event.
Proof. solve_decision. Defined.

Record state : Type := mk_state {
  globals : gmap string value;  (* the namespace of module [cli_mcp] *)
  events : list event;          (* what has been done so far, oldest first *)
  stdout : string               (* what has been written to standard output *)
}.

Definition fresh : state :=
  {| globals := ∅; events := []; stdout := "" |}.

(** ** Statements: state passing with exceptions *)

(** A statement runs on a state and either completes with a value or raises;
    the effects made before the raise stay. *)
Definition exec (A : Type) : Type := state → result A * state.

#[global] Instance exec_ret : MRet exec := λ A a s, (Ok a, s).
#[global] Instance exec_bind : MBind exec := λ A B k m s,
  match m s with
  | (Ok a, s') => k a s'
  | (Raise e, s') => (Raise e, s')
  end.

Definition raise {A : Type} (e : exn) : exec A := λ s, (Raise e, s).

(** The state after [name = v] at module level. *)
Definition set_global (name : string) (v : value) (s : state) : state :=
  {| globals := <[name := v]> (globals s);
     events := events s ++ [EvStore name];
     stdout := stdout s |}.

(** The state after the provider has been asked for [pkg]. *)
Definition record_lookup (pkg : string) (s : state) : state :=
  {| globals := globals s;
     events := events s ++ [EvLookup pkg];
     stdout := stdout s |}.

(** [name = v] at module level. *)
Definition store_global (name : string) (v : value) : exec unit := λ s,
  (Ok tt, set_global name v s).

(** Reading a module-level name; an unbound name is a [NameError]. *)
Definition load_global (name : string) : exec value := λ s,
  match globals s !! name with
  | Some v => (Ok v, s)
  | None => (Raise (mk_exn NameError name), s)
  end.

(** Calling a value on one string argument: a lookup function is run (and
    the call recorded), a string is not callable. *)
Definition call (callee : value) (arg : string) : exec string := λ s,
  match callee with
  | VFunc f => (f arg, record_lookup arg s)
  | VStr _ => (Raise (mk_exn TypeError "'str' object is not callable"), s)
  end.

(** [from importlib.metadata import version]: the name is bound only when the
    import succeeds. *)
Definition import_from (p : provider) (name : string) : exec unit :=
  match p with
  | Ok f => store_global name (VFunc f)
  | Raise e => raise e
  end.

(** [try: body except cls: handler]. *)
Definition try_except (body : exec unit) (cls : exc_class)
    (handler : exec unit) : exec unit := λ s,
  match body s with
  | (Ok tt, s') => (Ok tt, s')
  | (Raise e, s') =>
      if isinstance e cls then handler s' else (Raise e, s')
  end.

(** ** The initialiser, [cli_mcp/__init__.py] lines 3 to 8 *)

Definition package_name : string := "cli-mcp".
Definition fallback : string := "dev".

Definition try_body (p : provider) : exec unit :=
  import_from p "version";;
  f ← load_global "version";
  v ← call f package_name;
  store_global "__version__" (VStr v).

Definition except_body : exec unit :=
  store_global "__version__" (VStr fallback).

Definition cli_mcp_init (p : provider) : exec unit :=
  try_except (try_body p) Exception except_body.

(** The whole of [cli_mcp/__init__.py]: the docstring of line 1, which the
    interpreter stores under [__doc__], then the statement of lines 3 to
    8. *)
Definition docstring : string :=
  "cli-mcp: A modern Python CLI tool for MCP (Model Context Protocol) server management.".

Definition cli_mcp_module (p : provider) : exec unit :=
  store_global "__doc__" (VStr docstring);;
  cli_mcp_init p.

(** The value of [__version__] in a state. *)
Definition version_of (s : state) : option string :=
  match globals s !! "__version__" with
  | Some (VStr v) => Some v
  | _ => None
  end.

(** How often [__version__] has been assigned. *)
Definition assignments (s : state) : nat :=
  length (filter (λ ev, ev = EvStore "__version__") (events s)).

(** How the provider has been queried. *)
Definition lookups (s : state) : list string :=
  omap (λ ev, match ev with EvLookup pkg => Some pkg | _ => None end)
       (events s).

(** ** The command-line entry point *)

Definition newline : string := String (Ascii.ascii_of_nat 10) EmptyString.

(** [print(line)]. *)
Definition print (line : string) : exec unit := λ s,
  (Ok tt, {| globals := globals s;
             events := events s;
             stdout := stdout s +:+ line +:+ newline |}).

(** Reading a module-level name that must hold a string. *)
Definition load_str (name : string) : exec string :=
  v ← load_global name;
  match v with
  | VStr x => mret x
  | VFunc _ => raise (mk_exn TypeError "can only concatenate str")
  end.

(** Modelled from the spec: the entry point [cli_mcp/__main__.py] is not
    among the sources (only its test is).  The specification fixes one
    invocation: with the single flag [--version] the program prints the line
    [cli-mcp version: ] followed by the resolved version to standard output
    and exits with status 0. *)
Definition print_version : exec Z :=
  v ← load_str "__version__";
  print ("cli-mcp version: " +:+ v);;
  mret 0%Z.

(** Modelled from the spec: the argument handling of the same absent entry
    point.  Only [--version] is specified; every other argument list is left
    open, hence [None]. *)
Definition main (argv : list string) : option (exec Z) :=
  if decide (argv = ["--version"]) then Some print_version else None.

(** How a process ends: it exits with a status, or it dies of an exception
    nobody caught; in both cases with what it wrote to standard output. *)
Inductive proc_result : Type :=
  | Exited (returncode : Z) (out : string)
  | Uncaught (e : exn) (out : string).

(** [python -m cli_mcp argv] in a new process: the package is initialised
    first, then the entry point runs. *)
Definition python_m (p : provider) (argv : list string) : option proc_result :=
  match main argv with
  | None => None
  | Some entry =>
      Some match cli_mcp_init p fresh with
           | (Raise e, s) => Uncaught e (stdout s)
           | (Ok tt, s) =>
               match entry s with
               | (Ok code, s') => Exited code (stdout s')
               | (Raise e, s') => Uncaught e (stdout s')
               end
           end
  end.

(** [needle in hay]. *)
Fixpoint contains (needle hay : string) : bool :=
  String.prefix needle hay
  || match hay with
     | EmptyString => false
     | String _ rest => contains needle rest
     end.

(** ** The life cycle of the resolved version *)

Inductive phase : Type :=
  | Unresolved
  | Resolved (v : string)
  | Fallback.

(** Which arm of the [try] statement completes in a run from [s]: the body
    (the version is then the one it assigned) or the handler; neither when
    the exception is not one the handler takes. *)
Definition arm_completed (p : provider) (s : state) : phase :=
  match try_body p s with
  | (Ok tt, s') =>
      match version_of s' with
      | Some v => Resolved v
      | None => Unresolved
      end
  | (Raise e, _) => if isinstance e Exception then Fallback else Unresolved
  end.


(** The outcome of one run of the initialiser as a function of the provider
    alone: the string assigned to [__version__], or the exception that
    leaves the module. *)
Definition resolve (p : provider) : result string :=
  match p with
  | Ok f =>
      match f package_name with
      | Ok v => Ok v
      | Raise e => if isinstance e Exception then Ok fallback else Raise e
      end
  | Raise e => if isinstance e Exception then Ok fallback else Raise e
  end.

(** What one run of the initialiser on [s] shows: whether it completed, and
    then the value of [__version__]. *)
Definition run_result (p : provider) (s : state) : result (option string) :=
  match cli_mcp_init p s with
  | (Ok tt, s') => Ok (version_of s')
  | (Raise e, _) => Raise e
  end.

(** A process as the import system sees it: the module is in [sys.modules]
    once its body has completed, and an [import] does not run the body of a
    module that is there.  [loads] counts the completed executions of the
    body. *)
Record process : Type := mk_process {
  stage : phase;
  loads : nat;
  mem : state
}.

Definition boot : process := {| stage := Unresolved; loads := 0; mem := fresh |}.

Inductive op : Type :=
  | OpImport (p : provider)       (* [import cli_mcp] under provider [p] *)
  | OpReload (p : provider)       (* [importlib.reload(cli_mcp)] under [p] *)
  | OpForget                      (* [del sys.modules["cli_mcp"]] *)
  | OpMain (argv : list string).  (* the entry point on [argv] *)


(** The memory of a process that no longer holds the module: the namespace
    is gone, what was done and printed is not. *)
Definition dropped (s : state) : state :=
  {| globals := ∅; events := events s; stdout := stdout s |}.

Definition step (o : op) (pr : process) : process :=
  match o with
  | OpImport p =>
      match stage pr with
      | Unresolved =>
          match cli_mcp_init p (mem pr) with
          | (Ok tt, s') =>
              {| stage := arm_completed p (mem pr);
                 loads := S (loads pr); mem := s' |}
          | (Raise _, s') =>
              (* the half-made module is dropped, its namespace with it *)
              {| stage := Unresolved; loads := loads pr; mem := dropped s' |}
          end
      | _ => pr
      end
  | OpReload p =>
      match stage pr with
      | Unresolved => pr    (* not in [sys.modules]: nothing to reload *)
      | before =>
          match cli_mcp_init p (mem pr) with
          | (Ok tt, s') =>
              {| stage := arm_completed p (mem pr);
                 loads := S (loads pr); mem := s' |}
          | (Raise _, s') =>
              (* the module stays loaded, with what the run left of it *)
              {| stage := before; loads := loads pr; mem := s' |}
          end
      end
  | OpForget =>
      match stage pr with
      | Unresolved => pr    (* no such key *)
      | _ =>
          {| stage := Unresolved; loads := loads pr;
             mem := dropped (mem pr) |}
      end
  | OpMain argv =>
      match main argv with
      | Some entry =>
          {| stage := stage pr; loads := loads pr;
             mem := snd (entry (mem pr)) |}
      | None => pr
      end
  end.

Definition run (ops : list op) (pr : process) : process :=
  foldl (λ acc o, step o acc) pr ops.

(** Running the initialiser again and again on the same namespace (as
    [importlib.reload] does), the [i]-th run under provider [w i]. *)
Fixpoint rerun (w : nat → provider) (n : nat) (s : state) : state :=
  match n with
  | O => s
  | S k => snd (cli_mcp_init (w k) (rerun w k s))
  end.

(** The state in which the lookup is answered: [version] is bound and the
    call is on record. *)
Definition asked (f : lookup_fn) (s : state) : state :=
  record_lookup package_name (set_global "version" (VFunc f) s).

(** The five ways one run of the initialiser from [s] can go. *)
Inductive runs_to (s : state) : provider → result unit * state → Prop :=
  | run_resolved f v :
      f package_name = Ok v →
      runs_to s (Ok f)
        (Ok tt, set_global "__version__" (VStr v) (asked f s))
  | run_lookup_caught f e :
      f package_name = Raise e →
      isinstance e Exception = true →
      runs_to s (Ok f)
        (Ok tt, set_global "__version__" (VStr fallback) (asked f s))
  | run_lookup_escapes f e :
      f package_name = Raise e →
      isinstance e Exception = false →
      runs_to s (Ok f) (Raise e, asked f s)
  | run_import_caught e :
      isinstance e Exception = true →
      runs_to s (Raise e)
        (Ok tt, set_global "__version__" (VStr fallback) s)
  | run_import_escapes e :
      isinstance e Exception = false →
      runs_to s (Raise e) (Raise e, s).


(** A namespace as the import system hands it to the module body, with the
    module's name in it. *)
Definition named : state :=
  {| globals := {["__name__" := VStr "cli_mcp"]}; events := []; stdout := "" |}.

(** ** Some providers *)

Definition installed (v : string) : provider := Ok (λ _, Ok v).
Definition failing (e : exn) : provider := Ok (λ _, Raise e).
Definition absent (e : exn) : provider := Raise e.

Definition not_found : exn :=
  mk_exn PackageNotFoundError "No package metadata was found for cli-mcp".
Definition exiting : exn := mk_exn SystemExit "1".
Definition mocked : exn := mk_exn Exception "Package not found".
Definition interrupted : exn := mk_exn KeyboardInterrupt "".
Definition no_module : exn :=
  mk_exn ModuleNotFoundError "No module named 'importlib.metadata'".

(** ** Reloading under changing providers *)

(** Whether a run under [p] completes, and whether its import succeeds. *)
Definition completes (p : provider) : bool :=
  match resolve p with Ok _ => true | Raise _ => false end.

Definition imports (p : provider) : bool :=
  match p with Ok _ => true | Raise _ => false end.

(** Among the first [n] runs: how many complete, how many get as far as the
    lookup, and the value the last completed one assigned. *)
Fixpoint completed_runs (w : nat → provider) (n : nat) : nat :=
  match n with
  | O => 0
  | S k => completed_runs w k + (if completes (w k) then 1 else 0)
  end.

Fixpoint imported_runs (w : nat → provider) (n : nat) : nat :=
  match n with
  | O => 0
  | S k => imported_runs w k + (if imports (w k) then 1 else 0)
  end.

Fixpoint last_resolved (w : nat → provider) (n : nat) : option string :=
  match n with
  | O => None
  | S k =>
      match resolve (w k) with
      | Ok v => Some v
      | Raise _ => last_resolved w k
      end
  end.

(** ** The tests: [tests/test_init.py] and [tests/test_main.py] *)

(** Built-in classes the tests can raise, placed in the hierarchy where
    Python has them. *)
Definition AssertionError : exc_class := UserClass "AssertionError" Exception.
Definition AttributeError : exc_class := UserClass "AttributeError" Exception.
Definition KeyError : exc_class :=
  UserClass "KeyError" (UserClass "LookupError" Exception).

(** The interpreter a test runs in: the loaded modules with their
    namespaces, and the same record of events and output as before. *)
Record interp : Type := mk_interp {
  sys_modules : gmap string (gmap string value);
  journal : list event;
  console : string
}.

Definition script (A : Type) : Type := interp → result A * interp.

#[global] Instance script_ret : MRet script := λ A a i, (Ok a, i).
#[global] Instance script_bind : MBind script := λ A B k m i,
  match m i with
  | (Ok a, i') => k a i'
  | (Raise e, i') => (Raise e, i')
  end.

(** What the import system can find: for a module name, the body to run
    (under the provider in force when it is run), if there is one. *)
Definition finder : Type := string → option (provider → exec unit).

(** [name in sys.modules]. *)
Definition is_loaded (name : string) : script bool := λ i,
  (Ok (bool_decide (is_Some (sys_modules i !! name))), i).

(** [del sys.modules[name]]; a missing key is a [KeyError]. *)
Definition unload (name : string) : script unit := λ i,
  match sys_modules i !! name with
  | Some _ =>
      (Ok tt, {| sys_modules := delete name (sys_modules i);
                 journal := journal i; console := console i |})
  | None => (Raise (mk_exn KeyError name), i)
  end.

(** What importing the provider's module, [importlib.metadata], brings into
    [sys.modules] in the interpreter at hand: that module and the modules it
    depends on, with their namespaces. *)
Abbreviation module_table := (gmap string (gmap string value)).

(** [sys.modules] after the provider's module has been imported: what was
    loaded stays as it is, the rest of [stdlib] is added. *)
Definition with_provider_loaded (stdlib : module_table) (i : interp) : interp :=
  {| sys_modules := sys_modules i ∪ stdlib;
     journal := journal i; console := console i |}.

(** [import name]: a loaded module is handed out as it is; otherwise its
    body is looked for and run on an empty namespace, and the module is
    kept in [sys.modules] only if the body completes.  The bodies found
    are, like this package's, bodies that begin by importing the provider:
    when that import succeeds the provider's modules are loaded too. *)
Definition import_module (find : finder) (stdlib : module_table)
    (p : provider) (name : string) : script (gmap string value) := λ i,
  match sys_modules i !! name with
  | Some ns => (Ok ns, i)
  | None =>
      match find name with
      | None =>
          (Raise (mk_exn ModuleNotFoundError
                    ("No module named '" +:+ name +:+ "'")), i)
      | Some body =>
          let table :=
            if imports p then sys_modules i ∪ stdlib else sys_modules i in
          match body p {| globals := ∅; events := journal i;
                          stdout := console i |} with
          | (Ok tt, s) =>
              (Ok (globals s),
               {| sys_modules := <[name := globals s]> table;
                  journal := events s; console := stdout s |})
          | (Raise e, s) =>
              (Raise e,
               {| sys_modules := delete name table;
                  journal := events s; console := stdout s |})
          end
      end
  end.

(** [module.name]. *)
Definition getattr (ns : gmap string value) (name : string) : script value :=
  λ i, match ns !! name with
       | Some v => (Ok v, i)
       | None => (Raise (mk_exn AttributeError name), i)
       end.

(** [v == "..."] for a string literal. *)
Definition equals_str (v : value) (lit : string) : bool :=
  match v with
  | VStr x => bool_decide (x = lit)
  | VFunc _ => false
  end.

(** [assert cond]. *)
Definition assert_that (cond : bool) : script unit := λ i,
  if cond then (Ok tt, i) else (Raise (mk_exn AssertionError ""), i).

(** Entering [with patch("importlib.metadata.version")]: the target is
    resolved by importing the provider's module [env], which fails if that
    import fails and otherwise leaves the provider's modules loaded. *)
Definition enter_patch (stdlib : module_table) (env : provider)
    : script unit := λ i,
  match env with
  | Raise e => (Raise e, i)
  | Ok _ => (Ok tt, with_provider_loaded stdlib i)
  end.

(** [TestInit.test_version_fallback].  Inside the [with] block the lookup is
    a mock that raises [Exception("Package not found")] on every call. *)
Definition test_version_fallback (find : finder) (stdlib : module_table)
    (env : provider) : script unit :=
  enter_patch stdlib env;;
  let mock_version : lookup_fn :=
    λ _, Raise (mk_exn Exception "Package not found") in
  loaded ← is_loaded "mcpcli";
  (if loaded : bool then unload "mcpcli" else mret tt);;
  mcpcli ← import_module find stdlib (Ok mock_version) "mcpcli";
  v ← getattr mcpcli "__version__";
  assert_that (equals_str v "dev").

(** What [subprocess.run(..., capture_output=True, text=True)] hands back,
    as far as the test reads it. *)
Record completed_process : Type := mk_completed {
  cp_returncode : Z;
  cp_stdout : string
}.

(** [TestMain.test_module_execution], over the interpreter path
    [sys.executable] and the operating system's [subprocess.run]. *)
Definition test_module_execution (executable : string)
    (subprocess_run : list string → completed_process) : result unit :=
  let result := subprocess_run [executable; "-m"; "cli_mcp"; "--version"] in
  if bool_decide (cp_returncode result = 0%Z) then
    if contains "cli-mcp version:" (cp_stdout result)
    then Ok tt
    else Raise (mk_exn AssertionError "")
  else Raise (mk_exn AssertionError "").

(** The child process [python -m cli_mcp ...] for an arbitrary entry point:
    the package is initialised first, and the entry point runs only if that
    completes. *)
Definition python_m_with (entry : exec Z) (p : provider) : proc_result :=
  match cli_mcp_init p fresh with
  | (Raise e, s) => Uncaught e (stdout s)
  | (Ok tt, s) =>
      match entry s with
      | (Ok code, s') => Exited code (stdout s')
      | (Raise e, s') => Uncaught e (stdout s')
      end
  end.

(** What the parent sees of a child that ended as [r]; [status_of] is the
    exit status the interpreter gives a process that dies of an exception. *)
Definition completed (status_of : exn → Z) (r : proc_result)
    : completed_process :=
  match r with
  | Exited code out => {| cp_returncode := code; cp_stdout := out |}
  | Uncaught e out => {| cp_returncode := status_of e; cp_stdout := out |}
  end.

(** * Properties *)

(** ** Running the initialiser, case by case *)

Section Init.

Implicit Types (p : provider) (f : lookup_fn) (e : exn) (s : state).

Lemma try_body_import_fails e s :
  try_body (Raise e) s = (Raise e, s).
Proof. reflexivity. Qed.

Lemma try_body_imported f s :
  try_body (Ok f) s =
    match f package_name with
    | Ok v => (Ok tt, set_global "__version__" (VStr v) (asked f s))
    | Raise e => (Raise e, asked f s)
    end.
Proof.
  unfold try_body, import_from, mbind, exec_bind, store_global, load_global.
  cbn [globals set_global]. rewrite lookup_insert_eq.
  unfold call, asked. by destruct (f package_name).
Qed.

Lemma init_import_fails e s :
  cli_mcp_init (Raise e) s =
    if isinstance e Exception
    then (Ok tt, set_global "__version__" (VStr fallback) s)
    else (Raise e, s).
Proof. unfold cli_mcp_init, try_except. by rewrite try_body_import_fails. Qed.

Lemma init_lookup_returns f v s :
  f package_name = Ok v →
  cli_mcp_init (Ok f) s =
    (Ok tt, set_global "__version__" (VStr v) (asked f s)).
Proof.
  intros Hf. unfold cli_mcp_init, try_except.
  by rewrite try_body_imported, Hf.
Qed.

Lemma init_lookup_raises f e s :
  f package_name = Raise e →
  cli_mcp_init (Ok f) s =
    if isinstance e Exception
    then (Ok tt, set_global "__version__" (VStr fallback) (asked f s))
    else (Raise e, asked f s).
Proof.
  intros Hf. unfold cli_mcp_init, try_except.
  by rewrite try_body_imported, Hf.
Qed.

Lemma version_of_set_version v s :
  version_of (set_global "__version__" (VStr v) s) = Some v.
Proof. unfold version_of, set_global; cbn. by rewrite lookup_insert_eq. Qed.

Lemma version_of_asked f s : version_of (asked f s) = version_of s.
Proof. unfold version_of, asked; cbn. by rewrite lookup_insert_ne. Qed.

(** One run shows exactly what [resolve] computes from the provider, whatever
    the state it starts from. *)
Lemma run_result_resolve p s :
  run_result p s =
    match resolve p with
    | Ok v => Ok (Some v)
    | Raise e => Raise e
    end.
Proof.
  unfold run_result, resolve. destruct p as [f|e].
  - destruct (f package_name) as [v|e] eqn:Hf.
    + rewrite (init_lookup_returns _ _ _ Hf). by rewrite version_of_set_version.
    + rewrite (init_lookup_raises _ _ _ Hf).
      destruct (isinstance e Exception); [|done].
      by rewrite version_of_set_version.
  - rewrite init_import_fails.
    destruct (isinstance e Exception); [|done].
    by rewrite version_of_set_version.
Qed.


End Init.

Example installed_run :
  run_result (installed "0.1.0") fresh = Ok (Some "0.1.0").
Proof. vm_compute. reflexivity. Qed.

Example mocked_run : run_result (failing mocked) fresh = Ok (Some "dev").
Proof. vm_compute. reflexivity. Qed.

Example not_found_run : run_result (failing not_found) fresh = Ok (Some "dev").
Proof. vm_compute. reflexivity. Qed.

Example interrupted_run :
  run_result (failing interrupted) fresh = Raise interrupted.
Proof. vm_compute. reflexivity. Qed.

Example version_flag_installed :
  python_m (installed "0.1.0") ["--version"] =
    Some (Exited 0 ("cli-mcp version: 0.1.0" +:+ newline)).
Proof. vm_compute. reflexivity. Qed.

(** ** The exception hierarchy *)

Lemma issubclass_refl c : issubclass c c = true.
Proof. apply bool_decide_eq_true. destruct c; cbn [mro]; by left. Qed.

(** Every class derives from [BaseException]. *)
Lemma issubclass_BaseException c : issubclass c BaseException = true.
Proof.
  apply bool_decide_eq_true.
  induction c; cbn [mro]; rewrite ?elem_of_cons; tauto.
Qed.

(** Membership in a fixed order, one class after the other. *)
Ltac walk_mro Hd Hx :=
  apply list_elem_of_In in Hd; apply list_elem_of_In;
  cbn [In] in Hd; destruct_or!; try done; subst;
  apply list_elem_of_In in Hx; cbn [mro In] in Hx |- *; tauto.

(** The bases of a base of a class are bases of that class. *)
Lemma mro_trans c d x : d ∈ mro c → x ∈ mro d → x ∈ mro c.
Proof.
  induction c as [| | | | | | | | | |name base IH]; cbn [mro]; intros Hd Hx;
    try walk_mro Hd Hx.
  apply elem_of_cons in Hd. destruct Hd as [Hd|Hd]; [by subst|].
  apply elem_of_cons. right. by apply IH.
Qed.

Lemma issubclass_trans c d x :
  issubclass c d = true → issubclass d x = true → issubclass c x = true.
Proof.
  unfold issubclass. rewrite !bool_decide_eq_true. apply mro_trans.
Qed.

Lemma import_error_is_exception e :
  isinstance e ImportError = true → isinstance e Exception = true.
Proof. intros H. by apply (issubclass_trans _ _ _ H). Qed.

Example interrupt_is_no_exception :
  isinstance interrupted BaseException = true ∧
  isinstance interrupted Exception = false.
Proof. split; reflexivity. Qed.

Example exit_is_no_exception :
  isinstance exiting BaseException = true ∧
  isinstance exiting Exception = false.
Proof. split; reflexivity. Qed.

Example not_found_is_exception : isinstance not_found Exception = true.
Proof. reflexivity. Qed.

Example user_class_is_exception :
  issubclass (UserClass "MetadataError" (UserClass "RegistryError" Exception))
             Exception = true.
Proof. reflexivity. Qed.

(** ** What the primitive steps leave behind *)

Lemma assignments_set_version v s :
  assignments (set_global "__version__" v s) = S (assignments s).
Proof.
  unfold assignments, set_global; cbn [events].
  rewrite filter_app, length_app.
  change (length (filter _ [EvStore "__version__"])) with 1. lia.
Qed.

Lemma assignments_asked f s : assignments (asked f s) = assignments s.
Proof.
  unfold assignments, asked, record_lookup, set_global; cbn [events].
  rewrite !filter_app, !length_app.
  change (length (filter _ [EvStore "version"])) with 0.
  change (length (filter _ [EvLookup package_name])) with 0. lia.
Qed.

Lemma lookups_set_global name v s : lookups (set_global name v s) = lookups s.
Proof.
  unfold lookups, set_global; cbn [events].
  rewrite omap_app. cbn. by rewrite app_nil_r.
Qed.

Lemma lookups_asked f s : lookups (asked f s) = lookups s ++ [package_name].
Proof.
  unfold asked, lookups at 1, record_lookup; cbn [events].
  rewrite omap_app. cbn. by rewrite <- (lookups_set_global "version" (VFunc f)).
Qed.

Lemma globals_asked f s name :
  name ≠ "version" → globals (asked f s) !! name = globals s !! name.
Proof. intros Hne. unfold asked; cbn. by rewrite lookup_insert_ne. Qed.

(** ** The resolver on a failing and on an answering provider *)

(** C1, as the code has it: for every provider whose lookup of the
    registered package raises an error that is an instance of [Exception],
    the initialiser completes and [__version__] is the literal ["dev"]. *)
Theorem fallback_on_lookup_error (f : lookup_fn) (e : exn) (s : state) :
  f package_name = Raise e →
  isinstance e Exception = true →
  ∃ s', cli_mcp_init (Ok f) s = (Ok tt, s') ∧
        globals s' !! "__version__" = Some (VStr "dev") ∧
        version_of s' = Some "dev".
Proof.
  intros Hf He. rewrite (init_lookup_raises _ _ _ Hf), He.
  eexists; split; [reflexivity|]. split.
  - cbn. by rewrite lookup_insert_eq.
  - apply version_of_set_version.
Qed.

Lemma fallback_on_lookup_error_witness :
  ∃ s', cli_mcp_init (failing not_found) fresh = (Ok tt, s') ∧
        globals s' !! "__version__" = Some (VStr "dev") ∧
        version_of s' = Some "dev".
Proof.
  apply (fallback_on_lookup_error (λ _, Raise not_found) not_found fresh);
    reflexivity.
Defined.

(** C1 as stated fails: a lookup that raises [KeyboardInterrupt] raises an
    error, yet the initialiser does not complete and [__version__] is not
    ["dev"] (it is not bound at all). *)
Lemma fallback_on_any_error_fails :
  let f : lookup_fn := λ _, Raise interrupted in
  f package_name = Raise interrupted ∧
  cli_mcp_init (Ok f) fresh = (Raise interrupted, asked f fresh) ∧
  version_of (snd (cli_mcp_init (Ok f) fresh)) ≠ Some "dev" ∧
  globals (snd (cli_mcp_init (Ok f) fresh)) !! "__version__" = None.
Proof.
  cbn zeta. split; [reflexivity|]. split; [reflexivity|]. split.
  - by vm_compute.
  - by vm_compute.
Qed.

(** C2: for every string [v], when the provider returns [v] for the
    registered package name without raising, the initialiser completes and
    [__version__] is [v]. *)
Theorem success_gives_provider_version (f : lookup_fn) (v : string)
    (s : state) :
  f package_name = Ok v →
  ∃ s', cli_mcp_init (Ok f) s = (Ok tt, s') ∧
        globals s' !! "__version__" = Some (VStr v) ∧
        version_of s' = Some v.
Proof.
  intros Hf. rewrite (init_lookup_returns _ _ _ Hf).
  eexists; split; [reflexivity|]. split.
  - cbn. by rewrite lookup_insert_eq.
  - apply version_of_set_version.
Qed.

Lemma success_gives_provider_version_witness :
  ∃ s', cli_mcp_init (installed "1.4.2") fresh = (Ok tt, s') ∧
        globals s' !! "__version__" = Some (VStr "1.4.2") ∧
        version_of s' = Some "1.4.2".
Proof.
  apply (success_gives_provider_version (λ _, Ok "1.4.2") "1.4.2" fresh).
  reflexivity.
Defined.

(** C3, as the code has it: for every error raised by the metadata lookup
    that is an instance of [Exception], the initialiser does not raise: the
    handler assigns the fallback constant, exactly one assignment to
    [__version__] is made, and initialisation completes with a defined
    resolved version. *)
Theorem lookup_error_is_absorbed (f : lookup_fn) (e : exn) (s : state) :
  f package_name = Raise e →
  isinstance e Exception = true →
  (∀ e', fst (cli_mcp_init (Ok f) s) ≠ Raise e') ∧
  run_result (Ok f) s = Ok (Some fallback) ∧
  is_Some (version_of (snd (cli_mcp_init (Ok f) s))) ∧
  assignments (snd (cli_mcp_init (Ok f) s)) = S (assignments s).
Proof.
  intros Hf He. unfold run_result.
  rewrite (init_lookup_raises _ _ _ Hf), He; cbn [fst snd].
  rewrite version_of_set_version, assignments_set_version, assignments_asked.
  by repeat split.
Qed.

Lemma lookup_error_is_absorbed_witness :
  (∀ e', fst (cli_mcp_init (failing mocked) fresh) ≠ Raise e') ∧
  run_result (failing mocked) fresh = Ok (Some fallback) ∧
  is_Some (version_of (snd (cli_mcp_init (failing mocked) fresh))) ∧
  assignments (snd (cli_mcp_init (failing mocked) fresh)) =
    S (assignments fresh).
Proof.
  apply (lookup_error_is_absorbed (λ _, Raise mocked) mocked fresh);
    reflexivity.
Defined.

(** C3 as stated fails: a lookup that raises [SystemExit] makes the
    initialiser itself raise it, and no resolved version is defined. *)
Lemma lookup_error_can_escape :
  let f : lookup_fn := λ _, Raise exiting in
  f package_name = Raise exiting ∧
  fst (cli_mcp_init (Ok f) fresh) = Raise exiting ∧
  version_of (snd (cli_mcp_init (Ok f) fresh)) = None.
Proof. cbn zeta. repeat split; by vm_compute. Qed.

(** C9: the import stands inside the guarded region.  When importing the
    provider fails (the import statement raises [ImportError], of which the
    absent module's [ModuleNotFoundError] is a case), the handler runs just
    as for a failed lookup: the initialiser completes, [__version__] is
    ["dev"], and the provider was never asked.  Whatever the import raises,
    a run ends as it does when the lookup raises the same. *)
Theorem import_failure_is_guarded (e : exn) (s : state) :
  run_result (absent e) s = run_result (failing e) s ∧
  (isinstance e ImportError = true →
   cli_mcp_init (absent e) s =
     (Ok tt, set_global "__version__" (VStr "dev") s) ∧
   version_of (snd (cli_mcp_init (absent e) s)) = Some "dev" ∧
   lookups (snd (cli_mcp_init (absent e) s)) = lookups s).
Proof.
  split.
  - by rewrite !run_result_resolve.
  - intros He%import_error_is_exception. unfold absent.
    rewrite init_import_fails, He; cbn [snd].
    by rewrite version_of_set_version, lookups_set_global.
Qed.

Lemma import_failure_is_guarded_witness :
  run_result (absent no_module) fresh = run_result (failing no_module) fresh ∧
  cli_mcp_init (absent no_module) fresh =
    (Ok tt, set_global "__version__" (VStr "dev") fresh) ∧
  version_of (snd (cli_mcp_init (absent no_module) fresh)) = Some "dev" ∧
  lookups (snd (cli_mcp_init (absent no_module) fresh)) = lookups fresh.
Proof.
  destruct (import_failure_is_guarded no_module fresh) as [Hsame Hdev].
  split; [exact Hsame|]. apply Hdev. reflexivity.
Defined.

(** C10: the guard handles exactly the instances of [Exception].  For an
    error [e] raised by the lookup, the initialiser completes if and only if
    [e] is an instance of [Exception]; when [e] is a [BaseException] that is
    not one (as [KeyboardInterrupt] and [SystemExit] are), [e] leaves the
    initialiser, no assignment to [__version__] is made, and the name holds
    what it held before. *)
Theorem guard_is_exactly_Exception (f : lookup_fn) (e : exn) (s : state) :
  f package_name = Raise e →
  isinstance e BaseException = true ∧
  (isinstance e Exception = true ↔ fst (cli_mcp_init (Ok f) s) = Ok tt) ∧
  (isinstance e Exception = false →
   fst (cli_mcp_init (Ok f) s) = Raise e ∧
   globals (snd (cli_mcp_init (Ok f) s)) !! "__version__" =
     globals s !! "__version__" ∧
   assignments (snd (cli_mcp_init (Ok f) s)) = assignments s).
Proof.
  intros Hf. rewrite (init_lookup_raises _ _ _ Hf).
  split; [apply issubclass_BaseException|].
  destruct (isinstance e Exception); cbn [fst snd].
  - split; [done|]. intros; discriminate.
  - split; [split; intros; discriminate|]. intros _.
    by rewrite globals_asked, assignments_asked.
Qed.

Lemma guard_is_exactly_Exception_witness :
  fst (cli_mcp_init (failing interrupted) fresh) = Raise interrupted ∧
  globals (snd (cli_mcp_init (failing interrupted) fresh)) !! "__version__" =
    globals fresh !! "__version__" ∧
  assignments (snd (cli_mcp_init (failing interrupted) fresh)) =
    assignments fresh.
Proof.
  destruct (guard_is_exactly_Exception (λ _, Raise interrupted) interrupted
              fresh eq_refl) as (_ & _ & Hescapes).
  exact (Hescapes eq_refl).
Defined.

(** ** Every run is one of five *)

Lemma init_runs_to p s : runs_to s p (cli_mcp_init p s).
Proof.
  destruct p as [f|e].
  - destruct (f package_name) as [v|e] eqn:Hf.
    + rewrite (init_lookup_returns _ _ _ Hf). by constructor.
    + rewrite (init_lookup_raises _ _ _ Hf).
      destruct (isinstance e Exception) eqn:He; by econstructor.
  - rewrite init_import_fails.
    destruct (isinstance e Exception) eqn:He; by constructor.
Qed.

Lemma version_of_global s v :
  version_of s = Some v ↔ globals s !! "__version__" = Some (VStr v).
Proof.
  unfold version_of. destruct (globals s !! "__version__") as [[x|g]|];
    split; intros H; by simplify_eq.
Qed.

Lemma init_stdout p s : stdout (snd (cli_mcp_init p s)) = stdout s.
Proof. by destruct (init_runs_to p s). Qed.

(** A completed run has made exactly one assignment to [__version__], an
    aborted one none. *)
Lemma init_assignments p s :
  assignments (snd (cli_mcp_init p s)) =
    match fst (cli_mcp_init p s) with
    | Ok _ => S (assignments s)
    | Raise _ => assignments s
    end.
Proof.
  destruct (init_runs_to p s); cbn [fst snd];
    by rewrite ?assignments_set_version, ?assignments_asked.
Qed.

(** A completed run leaves the value [resolve] computes in [__version__],
    an aborted one what was there. *)
Lemma init_version p s :
  version_of (snd (cli_mcp_init p s)) =
    match resolve p with
    | Ok v => Some v
    | Raise _ => version_of s
    end.
Proof.
  unfold resolve.
  destruct (init_runs_to p s) as [f v Hf|f x Hf Hx|f x Hf Hx|x Hx|x Hx];
    cbn [snd]; rewrite ?Hf, ?Hx, ?version_of_set_version, ?version_of_asked;
    done.
Qed.

(** ** The entry point *)

Lemma print_version_bound s v :
  version_of s = Some v →
  print_version s =
    (Ok 0%Z, {| globals := globals s; events := events s;
                stdout := stdout s +:+ ("cli-mcp version: " +:+ v) +:+ newline |}).
Proof.
  intros Hv%version_of_global.
  unfold print_version, load_str, load_global, mbind, exec_bind.
  by rewrite Hv.
Qed.


Lemma prefix_app needle rest : String.prefix needle (needle +:+ rest) = true.
Proof.
  induction needle as [|a needle IH]; [by destruct rest|].
  change (String a needle +:+ rest) with (String a (needle +:+ rest)).
  cbn [String.prefix]. by destruct (Ascii.ascii_dec a a).
Qed.

Lemma contains_prefix needle rest : contains needle (needle +:+ rest) = true.
Proof.
  destruct (needle +:+ rest) eqn:Heq; cbn [contains];
    by rewrite <- Heq, prefix_app.
Qed.

Lemma python_m_version_flag p s' v :
  cli_mcp_init p fresh = (Ok tt, s') →
  version_of s' = Some v →
  python_m p ["--version"] =
    Some (Exited 0 ("cli-mcp version: " +:+ v +:+ newline)).
Proof.
  intros Hinit Hv. unfold python_m, main.
  rewrite decide_True by done. rewrite Hinit, (print_version_bound _ _ Hv).
  cbn [stdout]. pose proof (init_stdout p fresh) as Hout.
  rewrite Hinit in Hout. cbn [snd] in Hout. by rewrite Hout.
Qed.

(** C4, as the code has it: invoked as [python -m cli_mcp --version], when
    the initialisation of the package completes with [v] as the resolved
    version, the program exits with status 0 and writes to standard output
    the line [cli-mcp version: ] followed by [v]; that output contains the
    substring [cli-mcp version:]. *)
Theorem version_flag_prints_resolved (p : provider) (v : string) :
  run_result p fresh = Ok (Some v) →
  python_m p ["--version"] =
    Some (Exited 0 ("cli-mcp version: " +:+ v +:+ newline)) ∧
  contains "cli-mcp version:" ("cli-mcp version: " +:+ v +:+ newline) = true.
Proof.
  intros Hrun. split.
  - unfold run_result in Hrun.
    destruct (cli_mcp_init p fresh) as [[[]|e] s'] eqn:Hinit; [|done].
    apply (python_m_version_flag p s' v Hinit). by simplify_eq.
  - change ("cli-mcp version: " +:+ v +:+ newline)
      with ("cli-mcp version:" +:+ (" " +:+ v +:+ newline)).
    apply contains_prefix.
Qed.

Lemma version_flag_prints_resolved_witness :
  python_m (installed "0.3.1") ["--version"] =
    Some (Exited 0 ("cli-mcp version: 0.3.1" +:+ newline)) ∧
  contains "cli-mcp version:" ("cli-mcp version: 0.3.1" +:+ newline) = true.
Proof.
  apply (version_flag_prints_resolved (installed "0.3.1") "0.3.1").
  vm_compute. reflexivity.
Defined.

(** C4 as stated fails: under a provider whose lookup raises [SystemExit]
    the package never finishes initialising; the process dies of that
    exception with nothing printed, so the invocation does not exit with
    status 0 after printing the version line. *)
Lemma version_flag_needs_a_resolved_version :
  python_m (failing exiting) ["--version"] = Some (Uncaught exiting "") ∧
  ¬ (∀ p, ∃ out, python_m p ["--version"] = Some (Exited 0 out) ∧
                 contains "cli-mcp version:" out = true).
Proof.
  split; [by vm_compute|]. intros Hall.
  destruct (Hall (failing exiting)) as (out & Hexit & _).
  vm_compute in Hexit. discriminate Hexit.
Qed.

(** C5, as the code has it: when the metadata lookup is forced to fail with
    an error that is an instance of [Exception], [python -m cli_mcp
    --version] still exits with status 0 and prints [cli-mcp version: dev]
    to standard output. *)
Theorem version_flag_prints_dev (f : lookup_fn) (e : exn) :
  f package_name = Raise e →
  isinstance e Exception = true →
  python_m (Ok f) ["--version"] =
    Some (Exited 0 ("cli-mcp version: dev" +:+ newline)).
Proof.
  intros Hf He.
  eapply python_m_version_flag.
  - by rewrite (init_lookup_raises _ _ _ Hf), He.
  - apply version_of_set_version.
Qed.

Lemma version_flag_prints_dev_witness :
  python_m (failing mocked) ["--version"] =
    Some (Exited 0 ("cli-mcp version: dev" +:+ newline)).
Proof.
  apply (version_flag_prints_dev (λ _, Raise mocked) mocked); reflexivity.
Defined.

(** C5 as stated fails: with a lookup forced to raise [KeyboardInterrupt]
    the package never finishes initialising, so the process dies of that
    exception having printed nothing; it does not exit with status 0. *)
Lemma version_flag_dies_when_interrupted :
  let f : lookup_fn := λ _, Raise interrupted in
  f package_name = Raise interrupted ∧
  python_m (Ok f) ["--version"] = Some (Uncaught interrupted "") ∧
  ∀ out, python_m (Ok f) ["--version"] ≠ Some (Exited 0 out).
Proof.
  cbn zeta. split; [reflexivity|]. split; [by vm_compute|].
  intros out Hexit. vm_compute in Hexit. discriminate Hexit.
Qed.

(** ** Repeated runs *)

Lemma run_result_version p s v :
  run_result p s = Ok (Some v) →
  version_of (snd (cli_mcp_init p s)) = Some v.
Proof.
  unfold run_result.
  destruct (cli_mcp_init p s) as [[[]|e] s']; intros H; by simplify_eq.
Qed.

(** C6: under a fixed provider behaviour (the provider behaves as [b] in
    every run), any two runs of the resolution logic give the same result,
    from whatever states they start; it is the result [resolve] computes
    from [b] alone, and after every run that assigns, [__version__] holds
    that same value. *)
Theorem resolution_is_repeatable (w : nat → provider) (b : provider) :
  (∀ i, w i = b) →
  ∀ (s : state) (n m : nat),
    run_result (w n) (rerun w n s) = run_result (w m) (rerun w m s) ∧
    (∀ s1 s2, run_result b s1 = run_result b s2) ∧
    (∀ v, resolve b = Ok v → version_of (rerun w (S n) s) = Some v) ∧
    (∀ e, resolve b = Raise e → run_result (w n) (rerun w n s) = Raise e).
Proof.
  intros Hfixed s n m. repeat split.
  - by rewrite !run_result_resolve, !Hfixed.
  - intros s1 s2. by rewrite !run_result_resolve.
  - intros v Hv. cbn [rerun]. apply run_result_version.
    by rewrite run_result_resolve, Hfixed, Hv.
  - intros e He. by rewrite run_result_resolve, Hfixed, He.
Qed.

Lemma resolution_is_repeatable_witness :
  run_result (failing not_found) (rerun (λ _, failing not_found) 3 fresh) =
    run_result (failing not_found) (rerun (λ _, failing not_found) 7 fresh) ∧
  version_of (rerun (λ _, failing not_found) 4 fresh) = Some "dev".
Proof.
  destruct (resolution_is_repeatable (λ _, failing not_found)
              (failing not_found) (λ _, eq_refl) fresh 3 7)
    as (Hsame & _ & Hvalue & _).
  split; [exact Hsame|]. apply Hvalue. reflexivity.
Defined.

(** ** Frame *)

Lemma module_is_docstring_then_init p s :
  cli_mcp_module p s =
    cli_mcp_init p (set_global "__doc__" (VStr docstring) s).
Proof. reflexivity. Qed.

Lemma init_globals_frame p s name :
  name ≠ "__version__" → name ≠ "version" →
  globals (snd (cli_mcp_init p s)) !! name = globals s !! name.
Proof.
  intros Hv Hi.
  destruct (init_runs_to p s); cbn [snd globals set_global];
    rewrite ?lookup_insert_ne by done; by rewrite ?globals_asked.
Qed.

(** C8, as the code has it, for the module namespace, standard output and
    the calls of the provider.  One run of the resolver (lines 3 to 8)
    changes, in the module namespace, no name other than [__version__] and
    [version] (the imported lookup function, bound only when the import
    succeeds); the whole module body changes [__doc__] besides, and nothing
    else; neither writes to standard output; and the provider is asked at
    most once, for ["cli-mcp"], exactly once when the import succeeds. *)
Theorem init_changes_only_its_names (p : provider) (s : state) :
  let s' := snd (cli_mcp_init p s) in
  let m' := snd (cli_mcp_module p s) in
  (∀ name, name ≠ "__version__" → name ≠ "version" →
           globals s' !! name = globals s !! name) ∧
  (∀ e, p = Raise e → globals s' !! "version" = globals s !! "version") ∧
  stdout s' = stdout s ∧
  lookups s' =
    lookups s ++ match p with Ok _ => [package_name] | Raise _ => [] end ∧
  (∀ name, name ≠ "__doc__" → name ≠ "__version__" → name ≠ "version" →
           globals m' !! name = globals s !! name) ∧
  globals m' !! "__doc__" = Some (VStr docstring) ∧
  stdout m' = stdout s ∧
  lookups m' =
    lookups s ++ match p with Ok _ => [package_name] | Raise _ => [] end.
Proof.
  cbn zeta. rewrite module_is_docstring_then_init.
  assert (∀ t, lookups (snd (cli_mcp_init p t)) =
               lookups t ++ match p with
                            | Ok _ => [package_name]
                            | Raise _ => []
                            end) as Hasked.
  { intros t. destruct (init_runs_to p t); cbn [snd];
      by rewrite ?lookups_set_global, ?lookups_asked, ?app_nil_r. }
  repeat split.
  - intros name Hv Hi. by apply init_globals_frame.
  - intros e ->. rewrite init_import_fails.
    destruct (isinstance e Exception); [|done].
    cbn. by rewrite lookup_insert_ne.
  - apply init_stdout.
  - apply Hasked.
  - intros name Hd Hv Hi. rewrite init_globals_frame by done.
    cbn. by rewrite lookup_insert_ne.
  - rewrite init_globals_frame by done. cbn. apply lookup_insert_eq.
  - by rewrite init_stdout.
  - by rewrite Hasked, lookups_set_global.
Qed.

Lemma init_changes_only_its_names_witness :
  globals (snd (cli_mcp_init (installed "0.1.0") named)) !! "__name__" =
    globals named !! "__name__" ∧
  globals (snd (cli_mcp_init (absent no_module) named)) !! "version" =
    globals named !! "version" ∧
  globals (snd (cli_mcp_module (installed "0.1.0") named)) !! "__name__" =
    globals named !! "__name__".
Proof.
  split; [|split].
  - by apply (init_changes_only_its_names (installed "0.1.0") named).
  - by apply (init_changes_only_its_names (absent no_module) named)
      with (e := no_module).
  - by apply (init_changes_only_its_names (installed "0.1.0") named).
Defined.

(** C8 as stated fails: on a process whose namespace does not bind
    [version], a run under an installed package leaves [version] bound, a
    component of the state other than [__version__] that is not what it was
    before. *)
Lemma init_binds_version_too :
  let s' := snd (cli_mcp_init (installed "0.1.0") fresh) in
  "version" ≠ "__version__" ∧
  globals fresh !! "version" = None ∧
  globals s' !! "version" = Some (VFunc (λ _, Ok "0.1.0")) ∧
  ¬ (∀ name, name ≠ "__version__" →
             globals s' !! name = globals fresh !! name).
Proof.
  cbn zeta.
  assert (globals (snd (cli_mcp_init (installed "0.1.0") fresh)) !! "version" =
            Some (VFunc (λ _, Ok "0.1.0"))) as Hbound by (by vm_compute).
  split; [done|]. split; [done|]. split; [exact Hbound|].
  intros Hframe. specialize (Hframe "version"). rewrite Hbound in Hframe.
  by specialize (Hframe ltac:(done)).
Qed.

(** ** The life cycle: one assignment per load *)




Lemma assignments_dropped s : assignments (dropped s) = assignments s.
Proof. reflexivity. Qed.










Example life_cycle_fallback :
  stage (run [OpImport (failing interrupted); OpImport (failing not_found);
              OpMain ["--version"]; OpImport (installed "2.0.0")] boot)
    = Fallback.
Proof. vm_compute. reflexivity. Qed.

(** The command line is the life cycle's first two steps: what
    [python -m cli_mcp --version] has written when it ends is what the
    process holds after an import followed by the entry point. *)
Lemma python_m_is_import_then_main p :
  ∃ r, python_m p ["--version"] = Some r ∧
       match r with Exited _ out | Uncaught _ out => out end =
         stdout (mem (run [OpImport p; OpMain ["--version"]] boot)).
Proof.
  unfold python_m, run, main. rewrite decide_True by done.
  eexists; split; [reflexivity|]. cbn [foldl step stage boot mem main].
  unfold main. rewrite decide_True by done.
  destruct (cli_mcp_init p fresh) as [[[]|e] s'] eqn:Hinit; cbn [mem snd].
  - by destruct (print_version s') as [[code|e] s''].
  - unfold print_version, load_str, load_global, mbind, exec_bind, dropped.
    cbn [globals]. by rewrite lookup_empty.
Qed.

(** * Further properties of the initialiser *)

Lemma init_lookups p s :
  lookups (snd (cli_mcp_init p s)) =
    lookups s ++ (if imports p then [package_name] else []).
Proof.
  destruct (init_runs_to p s); cbn [snd imports];
    by rewrite ?lookups_set_global, ?lookups_asked, ?app_nil_r.
Qed.

(** X1: a resolved version other than ["dev"] is always what the provider
    returned for ["cli-mcp"]: the import succeeded and the lookup returned
    that very string. *)
Theorem resolved_version_is_the_providers (p : provider) (s : state)
    (v : string) :
  run_result p s = Ok (Some v) →
  v ≠ "dev" →
  ∃ f, p = Ok f ∧ f "cli-mcp" = Ok v.
Proof.
  rewrite run_result_resolve. unfold resolve. intros Hrun Hv.
  destruct p as [f|e].
  - exists f. split; [done|]. fold package_name.
    destruct (f package_name) as [x|e]; [by simplify_eq|].
    destruct (isinstance e Exception); by simplify_eq.
  - destruct (isinstance e Exception); by simplify_eq.
Qed.

Lemma resolved_version_is_the_providers_witness :
  ∃ f, installed "1.4.2" = Ok f ∧ f "cli-mcp" = Ok "1.4.2".
Proof.
  apply (resolved_version_is_the_providers (installed "1.4.2") fresh "1.4.2").
  - by vm_compute.
  - discriminate.
Defined.




(** X4: whenever the import succeeds, the module afterwards exposes the
    imported function under the name [version], whether the lookup returned,
    was caught or escaped, and whatever that name held before. *)
Theorem imported_name_stays_bound (f : lookup_fn) (s : state) :
  globals (snd (cli_mcp_init (Ok f) s)) !! "version" = Some (VFunc f).
Proof.
  assert (globals (asked f s) !! "version" = Some (VFunc f)) as Hbound.
  { unfold asked; cbn. apply lookup_insert_eq. }
  destruct (f package_name) as [v|e] eqn:Hf.
  - rewrite (init_lookup_returns _ _ _ Hf); cbn [snd globals set_global].
    by rewrite lookup_insert_ne.
  - rewrite (init_lookup_raises _ _ _ Hf).
    destruct (isinstance e Exception); cbn [snd globals set_global];
      by rewrite ?lookup_insert_ne.
Qed.

(** ** Reloading *)

Lemma rerun_step w k s :
  rerun w (S k) s = snd (cli_mcp_init (w k) (rerun w k s)).
Proof. reflexivity. Qed.

(** X5: after any number of runs on one namespace, under providers that may
    change from run to run, [__version__] holds what the last completed run
    assigned; runs that an escaping exception aborted leave it alone, and if
    no run completed it is what it was at the start. *)
Theorem reload_keeps_last_completed (w : nat → provider) (n : nat)
    (s : state) :
  version_of (rerun w n s) =
    match last_resolved w n with
    | Some v => Some v
    | None => version_of s
    end.
Proof.
  induction n as [|k IH]; [done|].
  rewrite rerun_step, init_version. cbn [last_resolved].
  by destruct (resolve (w k)).
Qed.

(** X6: every completed run assigns [__version__] exactly once and every
    aborted run not at all: after [n] runs the number of assignments has
    grown by the number of runs that completed. *)
Theorem reload_counts_assignments (w : nat → provider) (n : nat)
    (s : state) :
  assignments (rerun w n s) = assignments s + completed_runs w n.
Proof.
  induction n as [|k IH]; [cbn; lia|].
  rewrite rerun_step, init_assignments. cbn [completed_runs].
  pose proof (run_result_resolve (w k) (rerun w k s)) as Hres.
  unfold run_result, completes in *.
  destruct (cli_mcp_init (w k) (rerun w k s)) as [[[]|e] s'];
    destruct (resolve (w k)); simplify_eq; cbn [fst]; lia.
Qed.

(** X7: the initialiser never asks for any other package and never asks
    twice: after [n] runs the provider has been asked for ["cli-mcp"] once
    per run whose import succeeded, and nothing has been printed. *)
Theorem reload_asks_once_per_import (w : nat → provider) (n : nat)
    (s : state) :
  lookups (rerun w n s) = lookups s ++ replicate (imported_runs w n) "cli-mcp" ∧
  stdout (rerun w n s) = stdout s.
Proof.
  induction n as [|k [IHl IHo]]; [by rewrite app_nil_r|].
  rewrite rerun_step, init_stdout. split; [|exact IHo].
  rewrite init_lookups, IHl, <- app_assoc. f_equal. cbn [imported_runs].
  destruct (imports (w k)).
  - by rewrite Nat.add_1_r, replicate_S_end.
  - by rewrite Nat.add_0_r, app_nil_r.
Qed.

(** * The tests *)

(** What [test_version_fallback] does once ["mcpcli"] is out of
    [sys.modules], when that name is found to be this initialiser. *)
Lemma import_under_mock find stdlib i :
  sys_modules i !! "mcpcli" = None →
  find "mcpcli" = Some cli_mcp_init →
  ∃ ns i',
    import_module find stdlib (@Ok lookup_fn (λ _, Raise mocked)) "mcpcli" i =
      (Ok ns, i') ∧
    ns !! "__version__" = Some (VStr "dev") ∧
    sys_modules i' = <["mcpcli" := ns]> (sys_modules i ∪ stdlib) ∧
    console i' = console i.
Proof.
  intros Hout Hfind. unfold import_module. rewrite Hout, Hfind.
  rewrite (init_lookup_raises _ mocked) by done.
  change (isinstance mocked Exception) with true. cbv iota.
  do 2 eexists. split; [reflexivity|]. split; [|done].
  cbn. apply lookup_insert_eq.
Qed.

(** Loading the provider's modules twice is loading them once. *)
Lemma lookup_loaded_again (table stdlib : module_table) (name : string) :
  (table ∪ stdlib ∪ stdlib) !! name = (table ∪ stdlib) !! name.
Proof.
  rewrite !lookup_union.
  by destruct (table !! name), (stdlib !! name).
Qed.

(** X8: if the name ["mcpcli"] that the test imports is found to be this
    initialiser, [test_version_fallback] passes from every interpreter
    state: a module of that name loaded earlier, with whatever version, is
    dropped and the body is run again under the mock.  Afterwards
    [sys.modules] holds the module with [__version__] at ["dev"]; its other
    entries are those it had before together with the provider's modules
    that [patch] has loaded; and nothing is printed. *)
Theorem fallback_test_passes (find : finder) (stdlib : module_table)
    (f0 : lookup_fn) (i : interp) :
  find "mcpcli" = Some cli_mcp_init →
  let i' := snd (test_version_fallback find stdlib (Ok f0) i) in
  fst (test_version_fallback find stdlib (Ok f0) i) = Ok tt ∧
  (∃ ns, sys_modules i' !! "mcpcli" = Some ns ∧
         ns !! "__version__" = Some (VStr "dev")) ∧
  (∀ other, other ≠ "mcpcli" →
            sys_modules i' !! other = (sys_modules i ∪ stdlib) !! other) ∧
  console i' = console i.
Proof.
  intros Hfind. cbn zeta.
  unfold test_version_fallback, enter_patch, mbind, script_bind, is_loaded.
  fold mocked. set (j := with_provider_loaded stdlib i).
  assert (sys_modules j = sys_modules i ∪ stdlib) as Hj by done.
  assert (console j = console i) as Hcj by done.
  destruct (sys_modules j !! "mcpcli") as [cached|] eqn:Hcached.
  - cbn [bool_decide decide_rel is_Some_dec]. unfold unload. rewrite Hcached.
    destruct (import_under_mock find stdlib
                {| sys_modules := delete "mcpcli" (sys_modules j);
                   journal := journal j; console := console j |})
      as (ns & i' & -> & Hv & Hmods & Hout);
      [apply lookup_delete_eq|done|].
    unfold getattr. rewrite Hv. cbn [equals_str].
    change (bool_decide ("dev" = "dev")) with true.
    unfold assert_that. cbn [fst snd].
    cbn [sys_modules console] in Hmods, Hout. rewrite Hmods, Hout, Hcj.
    split; [done|]. split; [|split; [|done]].
    + exists ns. by rewrite lookup_insert_eq.
    + intros other Hother.
      rewrite lookup_insert_ne, lookup_union, lookup_delete_ne by done.
      rewrite <- lookup_union, Hj. apply lookup_loaded_again.
  - cbn [bool_decide decide_rel is_Some_dec mret script_ret].
    destruct (import_under_mock find stdlib j)
      as (ns & i' & -> & Hv & Hmods & Hout); [done..|].
    unfold getattr. rewrite Hv. cbn [equals_str].
    change (bool_decide ("dev" = "dev")) with true.
    unfold assert_that. cbn [fst snd].
    rewrite Hmods, Hout, Hcj.
    split; [done|]. split; [|split; [|done]].
    + exists ns. by rewrite lookup_insert_eq.
    + intros other Hother. rewrite lookup_insert_ne by done.
      rewrite Hj. apply lookup_loaded_again.
Qed.

Lemma fallback_test_passes_witness :
  let find : finder :=
    λ name, if bool_decide (name = "mcpcli") then Some cli_mcp_init else None in
  let stdlib : module_table := {["importlib.metadata" := ∅; "email" := ∅]} in
  let stale : interp :=
    {| sys_modules := {["mcpcli" := {["__version__" := VStr "9.9.9"]}]};
       journal := []; console := "" |} in
  fst (test_version_fallback find stdlib (installed "9.9.9") stale) = Ok tt.
Proof.
  cbn zeta.
  apply (fallback_test_passes
           (λ name, if bool_decide (name = "mcpcli") then Some cli_mcp_init
                    else None)
           _ (λ _, Ok "9.9.9")).
  reflexivity.
Defined.

(** X9: if the name ["mcpcli"] is not found, [test_version_fallback] never
    reaches its assertion: it raises [ModuleNotFoundError] from every
    interpreter state, also one in which a module of that name had been
    loaded, because the test removes that module first.  Afterwards no
    module of that name is loaded, and the other entries of [sys.modules]
    are those it had before together with the provider's modules that
    [patch] has loaded. *)
Theorem fallback_test_needs_the_module (find : finder)
    (stdlib : module_table) (f0 : lookup_fn) (i : interp) :
  find "mcpcli" = None →
  let i' := snd (test_version_fallback find stdlib (Ok f0) i) in
  fst (test_version_fallback find stdlib (Ok f0) i) =
    Raise (mk_exn ModuleNotFoundError "No module named 'mcpcli'") ∧
  sys_modules i' !! "mcpcli" = None ∧
  (∀ other, other ≠ "mcpcli" →
            sys_modules i' !! other = (sys_modules i ∪ stdlib) !! other).
Proof.
  intros Hfind. cbn zeta.
  unfold test_version_fallback, enter_patch, mbind, script_bind, is_loaded.
  set (j := with_provider_loaded stdlib i).
  assert (sys_modules j = sys_modules i ∪ stdlib) as Hj by done.
  destruct (sys_modules j !! "mcpcli") as [cached|] eqn:Hcached.
  - cbn [bool_decide decide_rel is_Some_dec]. unfold unload. rewrite Hcached.
    unfold import_module. cbn [sys_modules].
    rewrite lookup_delete_eq, Hfind. cbn [fst snd sys_modules].
    split; [done|]. split; [apply lookup_delete_eq|].
    intros other Hother. by rewrite lookup_delete_ne, Hj.
  - cbn [bool_decide decide_rel is_Some_dec mret script_ret].
    unfold import_module. rewrite Hcached, Hfind. cbn [fst snd].
    split; [done|]. split; [done|]. intros other _. by rewrite Hj.
Qed.

Lemma fallback_test_needs_the_module_witness :
  let find : finder :=
    λ name, if bool_decide (name = "cli_mcp") then Some cli_mcp_init else None in
  let stdlib : module_table := {["importlib.metadata" := ∅; "email" := ∅]} in
  let stale : interp :=
    {| sys_modules := {["mcpcli" := {["__version__" := VStr "dev"]}]};
       journal := []; console := "" |} in
  fst (test_version_fallback find stdlib (installed "0.1.0") stale) =
    Raise (mk_exn ModuleNotFoundError "No module named 'mcpcli'").
Proof.
  cbn zeta.
  apply (fallback_test_needs_the_module
           (λ name, if bool_decide (name = "cli_mcp") then Some cli_mcp_init
                    else None)
           _ (λ _, Ok "0.1.0")).
  reflexivity.
Defined.

(** ** The command-line test *)

Lemma python_m_is_python_m_with p :
  python_m p ["--version"] = Some (python_m_with print_version p).
Proof. unfold python_m, python_m_with, main. by rewrite decide_True. Qed.

(** X10: whatever the entry point does, [test_module_execution] fails when
    the package initialiser lets an exception escape in the child: the entry
    point never runs, the child has printed nothing, and whatever its exit
    status is, one of the two assertions does not hold. *)
Theorem module_test_fails_on_escape (executable : string)
    (subprocess_run : list string → completed_process)
    (status_of : exn → Z) (entry : exec Z) (p : provider) (e : exn) :
  fst (cli_mcp_init p fresh) = Raise e →
  subprocess_run [executable; "-m"; "cli_mcp"; "--version"] =
    completed status_of (python_m_with entry p) →
  test_module_execution executable subprocess_run =
    Raise (mk_exn AssertionError "").
Proof.
  intros Hesc Hchild. unfold test_module_execution. rewrite Hchild.
  unfold python_m_with. pose proof (init_stdout p fresh) as Hout.
  destruct (cli_mcp_init p fresh) as [[[]|x] s']; [done|].
  cbn [snd] in Hout. cbn [completed cp_returncode cp_stdout].
  rewrite Hout. change (contains _ (stdout fresh)) with false.
  by case_bool_decide.
Qed.

Lemma module_test_fails_on_escape_witness :
  test_module_execution "/usr/bin/python3"
    (λ _, completed (λ _, 1%Z)
            (python_m_with print_version (failing interrupted))) =
    Raise (mk_exn AssertionError "").
Proof.
  apply (module_test_fails_on_escape "/usr/bin/python3" _ (λ _, 1%Z)
           print_version (failing interrupted) interrupted);
    reflexivity.
Defined.

(** With the entry point the specification describes,
    [test_module_execution] passes for every provider under which the
    initialiser completes, whatever version it resolved. *)
Theorem module_test_passes_when_resolved (executable : string)
    (subprocess_run : list string → completed_process)
    (status_of : exn → Z) (p : provider) (v : string) :
  resolve p = Ok v →
  subprocess_run [executable; "-m"; "cli_mcp"; "--version"] =
    completed status_of (python_m_with print_version p) →
  test_module_execution executable subprocess_run = Ok tt.
Proof.
  intros Hres Hchild. unfold test_module_execution. rewrite Hchild.
  pose proof (run_result_resolve p fresh) as Hrun. rewrite Hres in Hrun.
  pose proof (run_result_version _ _ _ Hrun) as Hv.
  pose proof (init_stdout p fresh) as Hout.
  unfold python_m_with, run_result in *.
  destruct (cli_mcp_init p fresh) as [[[]|x] s']; [|done].
  cbn [snd] in Hv, Hout. rewrite (print_version_bound _ _ Hv).
  cbn [completed cp_returncode cp_stdout stdout]. rewrite Hout.
  change (stdout fresh +:+ ("cli-mcp version: " +:+ v) +:+ newline)
    with ("cli-mcp version:" +:+ (" " +:+ v +:+ newline)).
  by rewrite contains_prefix.
Qed.

Lemma module_test_passes_when_resolved_witness :
  test_module_execution "/usr/bin/python3"
    (λ _, completed (λ _, 1%Z)
            (python_m_with print_version (failing not_found))) = Ok tt.
Proof.
  apply (module_test_passes_when_resolved "/usr/bin/python3" _ (λ _, 1%Z)
           (failing not_found) "dev");
    reflexivity.
Defined.

(** ** The substring check is Python's [in] *)

Lemma string_app_cons (a : Ascii.ascii) (x y : string) :
  String a x +:+ y = String a (x +:+ y).
Proof. reflexivity. Qed.

Lemma prefix_spec needle hay :
  String.prefix needle hay = true ↔ ∃ post, hay = needle +:+ post.
Proof.
  revert hay. induction needle as [|a needle IH]; intros hay.
  - split; intros _.
    + exists hay. reflexivity.
    + destruct hay; reflexivity.
  - destruct hay as [|b hay]; cbn [String.prefix].
    + split; [done|]. intros [post Hpost]. discriminate Hpost.
    + setoid_rewrite string_app_cons.
      destruct (Ascii.ascii_dec a b) as [->|Hne].
      * rewrite IH. split; intros [post Hpost]; exists post; by simplify_eq.
      * split; [done|]. intros [post Hpost]. by simplify_eq.
Qed.

Lemma contains_spec needle hay :
  contains needle hay = true ↔ ∃ pre post, hay = pre +:+ needle +:+ post.
Proof.
  induction hay as [|b hay IH]; cbn [contains]; rewrite orb_true_iff.
  - rewrite prefix_spec. split.
    + intros [[post Hpost]|?]; [|done]. by exists "", post.
    + intros ([|c pre] & post & Heq); [|discriminate Heq].
      left. by exists post.
  - rewrite prefix_spec, IH. split.
    + intros [[post Hpost]|(pre & post & Heq)].
      * by exists "", post.
      * exists (String b pre), post. by rewrite string_app_cons, Heq.
    + intros ([|c pre] & post & Heq).
      * left. by exists post.
      * right. exists pre, post. rewrite string_app_cons in Heq.
        by simplify_eq.
Qed.
